(* Verification of the SeismicGuard Pro dashboard (src/app.py):
   credential store, session state transitions and the inference step of
   the Prediction Center. *)

From stdpp Require Import base gmap strings list.
From Stdlib Require Import QArith ZArith.

Open Scope string_scope.

(* ===================================================================== *)
(* Python effects: a call either returns a value or raises                *)
(* ===================================================================== *)

(** The exceptions that can escape the modelled functions. *)
Inductive exn :=
  | ReadError   (* open() / json.load on an unreadable or malformed file *)
  | IndexError  (* list indexing out of range *)
  | ValueError. (* pandas.DataFrame with a column count mismatch *)

Inductive py (A : Type) :=
  | Ret (a : A)
  | Raise (e : exn).
Arguments Ret {A} a.
Arguments Raise {A} e.

Definition py_bind {A B} (m : py A) (k : A -> py B) : py B :=
  match m with
  | Ret a => k a
  | Raise e => Raise e
  end.

Notation "'let*' x := m 'in' k" := (py_bind m (fun x => k))
  (at level 200, x name, m at level 100, k at level 200).

(* ===================================================================== *)
(* Section 2 of app.py: USER DATA MANAGEMENT                              *)
(* ===================================================================== *)

Abbreviation users_db := (gmap string string).

(** The state of the file [USER_DB = "users.json"] on disk. *)
Inductive file_state :=
  | Absent                   (* os.path.exists(USER_DB) is False *)
  | Stored (users : users_db) (* a JSON object of string -> string *)
  | Unreadable.              (* present, but open/json.load raises *)

Definition default_users : users_db := {[ "admin" := "seismic2024" ]}.

(** [load_users()] *)
Definition load_users (fs : file_state) : py users_db :=
  match fs with
  | Absent => Ret default_users
  | Stored users => Ret users
  | Unreadable => Raise ReadError
  end.

(** [save_user(username, password)]: returns the boolean result and the
    file state afterwards ([json.dump] overwrites the whole file). *)
Definition save_user (fs : file_state) (username password : string)
    : py (bool * file_state) :=
  let* users := load_users fs in
  if decide (is_Some (users !! username)) then Ret (false, fs)
  else
    let users' := <[username := password]> users in
    Ret (true, Stored users').

(* ===================================================================== *)
(* Section 4 of app.py: SESSION STATE                                     *)
(* ===================================================================== *)

Inductive level := LOW | MEDIUM | HIGH | CRITICAL.

(** A row of [st.session_state['history']]. *)
Record history_entry := mk_entry {
  entry_time : string;       (* "Time": datetime.now().strftime(...) *)
  entry_magnitude : Q;       (* "Magnitude": mag *)
  entry_level : level        (* "Level": levels[pred_idx] *)
}.

Record session := mk_session {
  logged_in : bool;
  user : option string;
  history : list history_entry
}.

Definition initial_session : session := mk_session false None [].

(** What the page displays in reaction to an action. *)
Inductive feedback :=
  | NoFeedback
  | ShowSuccess (msg : string)
  | ShowError (msg : string)
  | ShowWarning (msg : string).

(* ===================================================================== *)
(* Section 6 of app.py: auth_page actions                                 *)
(* ===================================================================== *)

(** The "Sign In" button of the Login tab. *)
Definition sign_in (fs : file_state) (u pw : string) (s : session)
    : py (session * feedback) :=
  let* users := load_users fs in
  if decide (users !! u = Some pw) then
    Ret (mk_session true (Some u) (history s), NoFeedback)
  else Ret (s, ShowError "Invalid Username or Password").

(** The "Register Now" button of the Create Account tab. *)
Definition register_now (fs : file_state) (new_user new_pw : string)
    : py (file_state * feedback) :=
  if decide (new_user <> "" /\ new_pw <> "") then
    let* r := save_user fs new_user new_pw in
    let '(ok, fs') := r in
    if ok then Ret (fs', ShowSuccess "Account created! Please switch to Login tab.")
    else Ret (fs', ShowError "Username already exists.")
  else Ret (fs, ShowWarning "Please enter both username and password.").

(** The "Logout" button of the sidebar. *)
Definition logout (s : session) : session :=
  mk_session false (user s) (history s).

(* ===================================================================== *)
(* Section 5 of app.py: the model bundle returned by load_assets()        *)
(* ===================================================================== *)

(** The five inputs of the Prediction Center, named as the features the
    pickled [feature_names] list refers to. *)
Inductive feature := Magnitude | Depth | MMI | CDI | Significance.

Record prediction_input := mk_input {
  mag : Q; dep : Q; mmi : Q; cdi : Q; sig : Q
}.

(** The named input a feature name stands for. *)
Definition input_of (inp : prediction_input) (f : feature) : Q :=
  match f with
  | Magnitude => mag inp
  | Depth => dep inp
  | MMI => mmi inp
  | CDI => cdi inp
  | Significance => sig inp
  end.

(** A one-row [pandas.DataFrame]: its columns with their values. *)
Abbreviation frame := (list (feature * Q)).

(** [(model, scaler, feat_names)] as loaded from the pickles: the
    classifier and scaler are opaque objects, known by their methods. *)
Record bundle := mk_bundle {
  scaler_transform : frame -> list Q;      (* scaler.transform(df)[0] *)
  model_predict : list Q -> Z;             (* model.predict(x)[0] *)
  model_predict_proba : list Q -> list Q;  (* model.predict_proba(x)[0] *)
  feature_names : list feature
}.

(** [load_assets()]: [None] is the sentinel [(None, None, None)]. *)
Abbreviation assets := (option bundle).

(* ===================================================================== *)
(* Section 7 of app.py: the Prediction Center                             *)
(* ===================================================================== *)

(** Python's [l[i]], negative indices counting from the end. *)
Definition py_index {A} (l : list A) (i : Z) : py A :=
  let j := if (0 <=? i)%Z then i else (Z.of_nat (length l) + i)%Z in
  if (0 <=? j)%Z then
    match l !! Z.to_nat j with
    | Some x => Ret x
    | None => Raise IndexError
    end
  else Raise IndexError.

Definition levels : list level := [LOW; MEDIUM; HIGH; CRITICAL].
Definition colors : list string :=
  ["#28a745"; "#ffc107"; "#fd7e14"; "#dc3545"].
Definition descriptions : list string := [
  "Minor shaking. No damage reported. Routine monitoring.";
  "Moderate shaking. Potential minor damage to old buildings.";
  "Severe shaking. Structural damage likely. High alert.";
  "Disastrous impact. Extreme damage expected. Emergency response active."].

(** The row [[mag, dep, cdi, mmi, sig]] as written at line 145. *)
Definition raw_row (inp : prediction_input) : list Q :=
  [mag inp; dep inp; cdi inp; mmi inp; sig inp].

(** [pd.DataFrame([row], columns=names)]: the values are taken by
    position, the i-th value under the i-th column name. *)
Definition make_frame (row : list Q) (names : list feature) : py frame :=
  if decide (length row = length names) then Ret (zip names row)
  else Raise ValueError.

(** What the result card and the gauge display. *)
Record prediction_result := mk_result {
  res_level : level;
  res_color : string;
  res_description : string;
  res_confidence : Q        (* probs[pred_idx]; shown times 100 *)
}.

(** The outcome of pressing "RUN AI ANALYSIS". *)
Inductive analysis_outcome :=
  | ModelMissing (s : session)                 (* st.error(...); return *)
  | Shown (s : session) (r : prediction_result)
  | Crashed (s : session) (e : exn).           (* an exception escaped *)

(** Lines 139-196 of [main_dashboard], for the button pressed with the
    inputs [inp] at wall-clock time [now]. *)
Definition run_analysis (a : assets) (inp : prediction_input) (now : string)
    (s : session) : analysis_outcome :=
  match a with
  | None => ModelMissing s
  | Some b =>
    match make_frame (raw_row inp) (feature_names b) with
    | Raise e => Crashed s e
    | Ret input_df =>
      let scaled := scaler_transform b input_df in
      let pred_idx := model_predict b scaled in
      let probs := model_predict_proba b scaled in
      match py_index levels pred_idx with
      | Raise e => Crashed s e
      | Ret lv =>
        let s' := mk_session (logged_in s) (user s)
                    (mk_entry now (mag inp) lv :: history s) in
        match py_index colors pred_idx, py_index descriptions pred_idx,
              py_index probs pred_idx with
        | Ret c, Ret d, Ret p => Shown s' (mk_result lv c d p)
        | Raise e, _, _ | _, Raise e, _ | _, _, Raise e => Crashed s' e
        end
      end
    end
  end.

(** Several presses of "RUN AI ANALYSIS" in one session; [None] as soon as
    one of them does not display a result. *)
Fixpoint run_seq (a : assets) (reqs : list (prediction_input * string))
    (s : session) : option (session * list prediction_result) :=
  match reqs with
  | [] => Some (s, [])
  | (inp, now) :: rest =>
    match run_analysis a inp now s with
    | Shown s' r =>
      match run_seq a rest s' with
      | Some (s'', rs) => Some (s'', r :: rs)
      | None => None
      end
    | _ => None
    end
  end.

(** The history row an analysis request and its result produce. *)
Definition entry_of (req : prediction_input * string) (r : prediction_result)
    : history_entry :=
  mk_entry (snd req) (mag (fst req)) (res_level r).

(** The feature order the values of [raw_row] are written in. *)
Definition code_feature_order : list feature :=
  [Magnitude; Depth; CDI; MMI; Significance].

(* ===================================================================== *)
(* Section 4 of app.py: initialisation of st.session_state                *)
(* ===================================================================== *)

(** [st.session_state] before the initialisation: each key may be missing
    ([None]) or hold the value of an earlier run. *)
Record raw_session_state := mk_raw {
  ss_logged_in : option bool;
  ss_user : option (option string);
  ss_history : option (list history_entry)
}.

(** Lines 56-61: each key is set to its default only when it is missing. *)
Definition init_session_state (r : raw_session_state) : raw_session_state :=
  mk_raw
    (match ss_logged_in r with None => Some false | Some b => Some b end)
    (match ss_user r with None => Some None | Some u => Some u end)
    (match ss_history r with None => Some [] | Some h => Some h end).

(** The state a browser session starts with: no key set yet. *)
Definition fresh_raw_state : raw_session_state := mk_raw None None None.

(** Reading the three keys after the initialisation. *)
Definition session_of_raw (r : raw_session_state) : option session :=
  match ss_logged_in r, ss_user r, ss_history r with
  | Some b, Some u, Some h => Some (mk_session b u h)
  | _, _, _ => None
  end.

(* ===================================================================== *)
(* Section 8 of app.py: one rerun of the page                             *)
(* ===================================================================== *)

(** The session left behind by "RUN AI ANALYSIS", whatever it displayed. *)
Definition outcome_session (o : analysis_outcome) : session :=
  match o with
  | ModelMissing s' | Shown s' _ | Crashed s' _ => s'
  end.

(** The position Python's [l[i]] reads in a list of length [n]. *)
Definition py_pos (n : nat) (i : Z) : nat :=
  Z.to_nat (if (0 <=? i)%Z then i else (Z.of_nat n + i)%Z).

(** The button a rerun reacts to. *)
Inductive action :=
  | SignInA (u pw : string)                       (* auth_page, Login tab *)
  | RegisterA (u pw : string)                     (* auth_page, Create Account *)
  | LogoutA                                       (* main_dashboard sidebar *)
  | AnalyzeA (inp : prediction_input) (now : string). (* Prediction Center *)

(** Lines 212-215: [main_dashboard()] when [logged_in], else
    [auth_page()]. A button of the view that is not rendered cannot be
    pressed, so it changes nothing. An exception ends the run with the
    file and the session as they were at that point. [main_dashboard]
    starts with [st.session_state['user'].upper()], which raises on
    [None]. *)
Definition app_step (a : assets) (st : file_state * session) (act : action)
    : file_state * session :=
  let '(fs, s) := st in
  if logged_in s then
    match user s with
    | None => (fs, s)
    | Some _ =>
      match act with
      | LogoutA => (fs, logout s)
      | AnalyzeA inp now =>
        (fs, outcome_session (run_analysis a inp now s))
      | _ => (fs, s)
      end
    end
  else
    match act with
    | SignInA u pw =>
      match sign_in fs u pw s with
      | Ret (s', _) => (fs, s')
      | Raise _ => (fs, s)
      end
    | RegisterA u pw =>
      match register_now fs u pw with
      | Ret (fs', _) => (fs', s)
      | Raise _ => (fs, s)
      end
    | _ => (fs, s)
    end.

(** A sequence of reruns. *)
Fixpoint app_run (a : assets) (st : file_state * session) (acts : list action)
    : file_state * session :=
  match acts with
  | [] => st
  | act :: rest => app_run a (app_step a st act) rest
  end.

(** The invariant [main_dashboard] relies on: a logged-in session names a
    user that the credential store knows. *)
Definition session_ok (st : file_state * session) : Prop :=
  logged_in (snd st) = true ->
  exists (u : string) (users : users_db),
    user (snd st) = Some u /\ load_users (fst st) = Ret users /\
    is_Some (users !! u).

(* ===================================================================== *)
(* Concrete inputs                                                        *)
(* ===================================================================== *)

(** The default values of the Prediction Center's number inputs. *)
Definition default_input : prediction_input :=
  mk_input (72 # 10) 15 8 (75 # 10) 600.

(** A bundle whose classifier always predicts class 2 with the
    probabilities [0.05, 0.10, 0.70, 0.15]; the scaler passes the row
    through, and the feature list is [feature_order]. *)
Definition demo_bundle (feature_order : list feature) : bundle :=
  mk_bundle (fun df => map snd df) (fun _ => 2%Z)
    (fun _ => [5 # 100; 10 # 100; 70 # 100; 15 # 100]) feature_order.

(* ===================================================================== *)
(* Auxiliary lemmas                                                       *)
(* ===================================================================== *)

Lemma raw_row_by_order (inp : prediction_input) :
  raw_row inp = map (input_of inp) code_feature_order.
Proof. reflexivity. Qed.

Lemma rev_lookup_0_last {A} (l : list A) : rev l !! 0%nat = last l.
Proof.
  induction l as [|x l _] using rev_ind; [reflexivity|].
  rewrite rev_unit, last_snoc. reflexivity.
Qed.

Lemma run_seq_history (a : assets) (reqs : list (prediction_input * string)) :
  forall (s0 s : session) (rs : list prediction_result),
  run_seq a reqs s0 = Some (s, rs) ->
  length rs = length reqs /\
  history s = (rev (zip_with entry_of reqs rs) ++ history s0)%list.
Proof.
  induction reqs as [|[inp now] rest IH]; intros s0 s rs Hrun; simpl in Hrun.
  - injection Hrun as <- <-. split; reflexivity.
  - destruct (run_analysis a inp now s0) as [|s' r|] eqn:Ha; try discriminate.
    destruct (run_seq a rest s') as [[s'' rs']|] eqn:Hr; try discriminate.
    injection Hrun as <- <-.
    destruct (IH _ _ _ Hr) as [Hlen Hhist].
    assert (Hs' : history s' = entry_of (inp, now) r :: history s0).
    { unfold run_analysis in Ha.
      destruct a as [b|]; try discriminate.
      destruct (make_frame _ _); try discriminate.
      destruct (py_index levels _) as [lv|]; try discriminate.
      repeat case_match; try discriminate.
      injection Ha as <- <-. reflexivity. }
    split; [simpl; lia|].
    rewrite Hhist, Hs'. simpl. rewrite <- app_assoc. reflexivity.
Qed.

(* ===================================================================== *)
(* Credential store                                                       *)
(* ===================================================================== *)

(** C3: registering a username that [load_users] already reports returns
    [False] and leaves the file as it was; in particular "alice"/"pw1"
    followed by "alice"/"pw2" keeps "pw1" as alice's password. *)
Theorem save_user_existing_conflict (fs : file_state) (users : users_db)
    (u pw : string)
    (Hload : load_users fs = Ret users) (Hin : is_Some (users !! u)) :
  save_user fs u pw = Ret (false, fs) /\
  (users !! "alice" = None ->
   exists fs1, save_user fs "alice" "pw1" = Ret (true, fs1) /\
     save_user fs1 "alice" "pw2" = Ret (false, fs1) /\
     exists users1, load_users fs1 = Ret users1 /\
       users1 !! "alice" = Some "pw1").
Proof.
  unfold save_user. rewrite Hload. simpl. split.
  - rewrite decide_True by done. reflexivity.
  - intros Hal. rewrite decide_False by (rewrite Hal; inversion 1; discriminate).
    eexists. split; [reflexivity|]. simpl.
    rewrite lookup_insert_eq, decide_True by done. split; [reflexivity|].
    eexists. split; [reflexivity|]. apply lookup_insert_eq.
Qed.

Lemma save_user_existing_conflict_witness :
  load_users Absent = Ret default_users /\
  save_user Absent "admin" "x" = Ret (false, Absent) /\
  (default_users !! "alice" = None ->
   exists fs1, save_user Absent "alice" "pw1" = Ret (true, fs1) /\
     save_user fs1 "alice" "pw2" = Ret (false, fs1) /\
     exists users1, load_users fs1 = Ret users1 /\
       users1 !! "alice" = Some "pw1").
Proof.
  split; [reflexivity|].
  apply (save_user_existing_conflict Absent default_users "admin" "x");
    [reflexivity | eexists; reflexivity].
Defined.

(** C4: registering a username absent from [load_users] returns [True],
    and the next [load_users] maps it to exactly the submitted password. *)
Theorem save_user_fresh_persists (fs : file_state) (users : users_db)
    (u pw : string)
    (Hload : load_users fs = Ret users) (Hnotin : users !! u = None) :
  exists fs', save_user fs u pw = Ret (true, fs') /\
    exists users', load_users fs' = Ret users' /\ users' !! u = Some pw /\
      users' = <[u := pw]> users.
Proof.
  unfold save_user. rewrite Hload. simpl.
  rewrite decide_False by (rewrite Hnotin; inversion 1; discriminate).
  eexists. split; [reflexivity|].
  eexists. split; [reflexivity|]. split; [apply lookup_insert_eq|reflexivity].
Qed.

Lemma save_user_fresh_persists_witness :
  exists fs', save_user Absent "alice" "pw1" = Ret (true, fs') /\
    exists users', load_users fs' = Ret users' /\
      users' !! "alice" = Some "pw1" /\
      users' = <[ "alice" := "pw1" ]> default_users.
Proof.
  apply (save_user_fresh_persists Absent default_users); reflexivity.
Defined.

(** C6 as stated: [load_users] never raises, and an absent or unreadable
    file both yield the default admin mapping. *)
Definition load_never_fails_claim : Prop :=
  forall fs, exists users, load_users fs = Ret users /\
    (fs = Absent \/ fs = Unreadable -> users = default_users).

(** C6 fails: an unreadable file makes [load_users] raise. *)
Lemma load_users_unreadable_raises :
  ~ load_never_fails_claim.
Proof.
  intros H. destruct (H Unreadable) as (users & Hl & _). discriminate.
Qed.

(** C6 (amended): an absent file yields the default mapping with the single
    admin credential, a readable file yields its mapping, and an unreadable
    or malformed file makes [load_users] raise; the error reaches the
    callers, [save_user] and the Sign-In action, unchanged. *)
Theorem load_users_cases :
  load_users Absent = Ret {[ "admin" := "seismic2024" ]} /\
  (forall users, load_users (Stored users) = Ret users) /\
  load_users Unreadable = Raise ReadError /\
  (forall u pw, save_user Unreadable u pw = Raise ReadError) /\
  (forall u pw s, sign_in Unreadable u pw s = Raise ReadError).
Proof. repeat split. Qed.

(** C10: with no file on disk, registering "admin" with any password
    reports a conflict and writes nothing, also through the Register Now
    button. *)
Theorem register_admin_without_file (pw : string) :
  save_user Absent "admin" pw = Ret (false, Absent) /\
  (pw <> "" ->
   register_now Absent "admin" pw = Ret (Absent, ShowError "Username already exists.")).
Proof.
  split; [reflexivity|].
  intros Hpw. unfold register_now.
  rewrite decide_True by (split; [discriminate|exact Hpw]). reflexivity.
Qed.

Lemma register_admin_without_file_witness :
  save_user Absent "admin" "pw" = Ret (false, Absent) /\
  ("pw" <> "" ->
   register_now Absent "admin" "pw" = Ret (Absent, ShowError "Username already exists.")).
Proof. apply (register_admin_without_file "pw"). Defined.

(* ===================================================================== *)
(* Session state                                                          *)
(* ===================================================================== *)

(** C9: with no file on disk, signing in as "admin" / "seismic2024" sets
    [logged_in] to true and [user] to "admin". *)
Theorem sign_in_default_admin (s : session) :
  exists s', sign_in Absent "admin" "seismic2024" s = Ret (s', NoFeedback) /\
    logged_in s' = true /\ user s' = Some "admin".
Proof. eexists. split; [reflexivity|]. split; reflexivity. Qed.

(** C5 as stated: logout sets [logged_in] to false, [user] to none and
    keeps the history. *)
Definition logout_claim : Prop :=
  forall s, logged_in (logout s) = false /\ user (logout s) = None /\
    history (logout s) = history s.

(** C5 fails: after logout the user name is still in the session. *)
Lemma logout_keeps_user_counterexample :
  ~ logout_claim.
Proof.
  intros H. destruct (H (mk_session true (Some "alice") [])) as (_ & Hu & _).
  discriminate.
Qed.

(** C5 (amended): logout sets [logged_in] to false and leaves both [user]
    and [history] unchanged. *)
Theorem logout_effect (s : session) :
  logged_in (logout s) = false /\ user (logout s) = user s /\
  history (logout s) = history s.
Proof. repeat split. Qed.

(* ===================================================================== *)
(* Prediction Center                                                      *)
(* ===================================================================== *)

(** C7: without a model bundle, pressing "RUN AI ANALYSIS" shows the error
    and returns with the session, its history included, unchanged. *)
Theorem run_analysis_without_model (inp : prediction_input) (now : string)
    (s : session) :
  run_analysis None inp now s = ModelMissing s.
Proof. reflexivity. Qed.

(** C1: with a loaded bundle of five feature names whose classifier predicts
    the class [i] in 0..3 and the four probabilities [p] (each in [0,1]) for
    the scaled row, the analysis displays [levels[i]] with the confidence
    [p[i]], which lies in [0,1]. *)
Theorem run_analysis_result (b : bundle) (inp : prediction_input)
    (now : string) (s : session) (i : Z) (p : list Q)
    (Hnames : length (feature_names b) = 5%nat)
    (Hpred : model_predict b
               (scaler_transform b (zip (feature_names b) (raw_row inp))) = i)
    (Hproba : model_predict_proba b
               (scaler_transform b (zip (feature_names b) (raw_row inp))) = p)
    (Hi : (0 <= i <= 3)%Z) (Hlen : length p = 4%nat)
    (Hp : Forall (fun q => 0 <= q <= 1)%Q p) :
  exists s' r, run_analysis (Some b) inp now s = Shown s' r /\
    levels !! Z.to_nat i = Some (res_level r) /\
    p !! Z.to_nat i = Some (res_confidence r) /\
    (0 <= res_confidence r <= 1)%Q.
Proof.
  unfold run_analysis, make_frame.
  rewrite decide_True by (rewrite Hnames; reflexivity).
  rewrite Hpred, Hproba.
  destruct p as [|p0 [|p1 [|p2 [|p3 [|]]]]]; simpl in Hlen; try discriminate.
  rewrite !Forall_cons in Hp. destruct Hp as (Hp0 & Hp1 & Hp2 & Hp3 & _).
  assert (Hc : i = 0%Z \/ i = 1%Z \/ i = 2%Z \/ i = 3%Z) by lia.
  destruct Hc as [-> | [-> | [-> | ->]]]; simpl.
  all: do 2 eexists; split; [reflexivity|].
  all: simpl; split; [reflexivity|]; split; [reflexivity|assumption].
Qed.

Lemma run_analysis_result_witness :
  exists s' r,
    run_analysis (Some (demo_bundle code_feature_order)) default_input
      "12:00:00" initial_session = Shown s' r /\
    levels !! Z.to_nat 2 = Some (res_level r) /\
    [5 # 100; 10 # 100; 70 # 100; 15 # 100] !! Z.to_nat 2
      = Some (res_confidence r) /\
    (0 <= res_confidence r <= 1)%Q.
Proof.
  apply (run_analysis_result (demo_bundle code_feature_order) default_input
           "12:00:00" initial_session 2%Z [5 # 100; 10 # 100; 70 # 100; 15 # 100]);
    try reflexivity.
  - lia.
  - repeat constructor; vm_compute; discriminate.
Defined.

(** C2 as stated: for any ordering of the five feature names, the column
    under each name holds the named input. *)
Definition frame_by_name_claim : Prop :=
  forall (names : list feature) (inp : prediction_input) (df : frame),
    Permutation names [Magnitude; Depth; MMI; CDI; Significance] ->
    make_frame (raw_row inp) names = Ret df ->
    forall (k : nat) (f : feature) (v : Q),
      df !! k = Some (f, v) -> v = input_of inp f.

(** C2 fails: with the feature list [magnitude, depth, mmi, cdi, sig] and
    the default inputs, the column named MMI receives the CDI value 7.5. *)
Lemma frame_by_name_counterexample :
  ~ frame_by_name_claim.
Proof.
  intros H.
  assert (Hv : (75 # 10) = input_of default_input MMI).
  { apply (H [Magnitude; Depth; MMI; CDI; Significance] default_input
             (zip [Magnitude; Depth; MMI; CDI; Significance]
                  (raw_row default_input)) ltac:(reflexivity) ltac:(reflexivity) 2%nat).
    reflexivity. }
  simpl in Hv. discriminate.
Qed.

(** C2 (amended): for any five feature names, the row is built from the
    values in the fixed order magnitude, depth, CDI, MMI, significance,
    placed by position under the names; the column under each name holds
    the named input for every input exactly when the feature list is that
    fixed order. *)
Theorem frame_positional (names : list feature)
    (Hlen : length names = 5%nat) :
  (forall inp, make_frame (raw_row inp) names =
     Ret (zip names (map (input_of inp) code_feature_order))) /\
  ((forall inp k f v, zip names (raw_row inp) !! k = Some (f, v) ->
      v = input_of inp f) <-> names = code_feature_order).
Proof.
  split.
  { intros inp. unfold make_frame. rewrite decide_True by (rewrite Hlen; reflexivity).
    reflexivity. }
  split.
  - intros H.
    set (inp0 := mk_input 1 2 3 4 5).
    destruct names as [|n0 [|n1 [|n2 [|n3 [|n4 [|]]]]]]; simpl in Hlen; try discriminate.
    assert (Hk : forall k f v, zip [n0; n1; n2; n3; n4] (raw_row inp0) !! k = Some (f, v) ->
                  v = input_of inp0 f) by (intros; eapply H; eauto).
    pose proof (Hk 0%nat n0 1 eq_refl) as E0.
    pose proof (Hk 1%nat n1 2 eq_refl) as E1.
    pose proof (Hk 2%nat n2 4 eq_refl) as E2.
    pose proof (Hk 3%nat n3 3 eq_refl) as E3.
    pose proof (Hk 4%nat n4 5 eq_refl) as E4.
    unfold code_feature_order.
    destruct n0, n1, n2, n3, n4; simpl in *; try discriminate; reflexivity.
  - intros -> inp k f v Hk.
    destruct k as [|[|[|[|[|k]]]]]; simpl in Hk; try discriminate;
      injection Hk as <- <-; reflexivity.
Qed.

Lemma frame_positional_witness :
  (forall inp, make_frame (raw_row inp) code_feature_order =
     Ret (zip code_feature_order (map (input_of inp) code_feature_order))) /\
  ((forall inp k f v, zip code_feature_order (raw_row inp) !! k = Some (f, v) ->
      v = input_of inp f) <-> code_feature_order = code_feature_order).
Proof. apply (frame_positional code_feature_order). reflexivity. Defined.

(** C8: starting from an empty history, N analyses that each display a
    result leave N history rows, the first one for the last analysis. *)
Theorem history_newest_first (a : assets)
    (reqs : list (prediction_input * string)) (s0 s : session)
    (rs : list prediction_result)
    (Hrun : run_seq a reqs s0 = Some (s, rs)) (Hempty : history s0 = []) :
  length (history s) = length reqs /\
  history s !! 0%nat = last (zip_with entry_of reqs rs).
Proof.
  destruct (run_seq_history a reqs s0 s rs Hrun) as [Hlen Hhist].
  rewrite Hhist, Hempty, app_nil_r. split.
  - rewrite length_rev, length_zip_with. lia.
  - apply rev_lookup_0_last.
Qed.

Lemma history_newest_first_witness :
  exists s rs,
    run_seq (Some (demo_bundle code_feature_order))
      [(default_input, "10:00:00"); (mk_input 5 10 4 4 100, "10:05:00")]
      initial_session = Some (s, rs) /\
    length (history s) = 2%nat /\
    history s !! 0%nat = Some (mk_entry "10:05:00" 5 HIGH).
Proof.
  do 2 eexists. split; [vm_compute; reflexivity|].
  destruct (history_newest_first (Some (demo_bundle code_feature_order))
              [(default_input, "10:00:00"); (mk_input 5 10 4 4 100, "10:05:00")]
              initial_session _ _ eq_refl eq_refl) as [H1 H2].
  split; [exact H1 | exact H2].
Defined.

(* ===================================================================== *)
(* Further properties of app.py                                           *)
(* ===================================================================== *)

Lemma py_index_ret {A} (l : list A) (i : Z) (x : A) :
  py_index l i = Ret x -> l !! py_pos (length l) i = Some x.
Proof.
  unfold py_index, py_pos.
  destruct (0 <=? (if (0 <=? i)%Z then i else (Z.of_nat (length l) + i)%Z))%Z;
    [|discriminate].
  destruct (l !! _) eqn:E; [|discriminate]. injection 1 as <-. reflexivity.
Qed.

Lemma py_index_out {A} (l : list A) (i : Z) :
  (i < - Z.of_nat (length l) \/ Z.of_nat (length l) <= i)%Z ->
  py_index l i = Raise IndexError.
Proof.
  intros Hi. unfold py_index.
  destruct (Z.leb_spec 0 i) as [H0|H0].
  - rewrite (proj2 (Z.leb_le 0 i)) by lia.
    rewrite lookup_ge_None_2 by lia. reflexivity.
  - rewrite (proj2 (Z.leb_gt 0 (Z.of_nat (length l) + i))) by lia.
    reflexivity.
Qed.

(** Pressing "RUN AI ANALYSIS" keeps [logged_in] and [user], and either
    leaves the history as it was or puts one row, with the press time and
    the magnitude input, in front of it. *)
Theorem run_analysis_session_frame (a : assets) (inp : prediction_input)
    (now : string) (s : session) :
  let s' := outcome_session (run_analysis a inp now s) in
  logged_in s' = logged_in s /\ user s' = user s /\
  (history s' = history s \/
   exists lv, history s' = mk_entry now (mag inp) lv :: history s).
Proof.
  unfold run_analysis.
  destruct a as [b|]; [|simpl; auto].
  destruct (make_frame _ _); [|simpl; auto].
  destruct (py_index levels _) as [lv|]; [|simpl; auto].
  repeat case_match; simpl; eauto.
Qed.

(** Whatever the classifier predicts, a displayed result shows the level,
    the card colour and the description from the same row of the three
    tables [levels], [colors] and [descriptions]. *)
Theorem shown_result_consistent (a : assets) (inp : prediction_input)
    (now : string) (s s' : session) (r : prediction_result)
    (Hshown : run_analysis a inp now s = Shown s' r) :
  exists k, levels !! k = Some (res_level r) /\
    colors !! k = Some (res_color r) /\
    descriptions !! k = Some (res_description r).
Proof.
  unfold run_analysis in Hshown.
  destruct a as [b|]; [|discriminate].
  destruct (make_frame _ _) as [df|]; [|discriminate].
  set (i := model_predict b (scaler_transform b df)) in Hshown.
  set (pr := model_predict_proba b (scaler_transform b df)) in Hshown.
  destruct (py_index levels i) as [lv|] eqn:Hl; [|discriminate].
  destruct (py_index colors i) as [c|] eqn:Hc;
  destruct (py_index descriptions i) as [d|] eqn:Hd;
  destruct (py_index pr i) as [p|];
    try discriminate.
  injection Hshown as <- <-. simpl.
  apply py_index_ret in Hl, Hc, Hd.
  eexists. split; [exact Hl|]. split; [exact Hc|exact Hd].
Qed.

Lemma shown_result_consistent_witness :
  run_analysis (Some (demo_bundle code_feature_order)) default_input "12:00:00"
    initial_session =
  Shown (mk_session false None [mk_entry "12:00:00" (72 # 10) HIGH])
    (mk_result HIGH "#fd7e14"
       "Severe shaking. Structural damage likely. High alert." (70 # 100)) /\
  exists k, levels !! k = Some HIGH /\ colors !! k = Some "#fd7e14" /\
    descriptions !! k = Some "Severe shaking. Structural damage likely. High alert.".
Proof.
  split; [reflexivity|].
  apply (shown_result_consistent (Some (demo_bundle code_feature_order))
           default_input "12:00:00" initial_session
           (mk_session false None [mk_entry "12:00:00" (72 # 10) HIGH])
           (mk_result HIGH "#fd7e14"
              "Severe shaking. Structural damage likely. High alert." (70 # 100))).
  reflexivity.
Defined.

(** A negative class index is read from the end of the tables, as Python
    does: for [i] in -4..-1 the analysis shows [levels[4+i]] with the
    confidence [p[4+i]]. *)
Theorem run_analysis_negative_index (b : bundle) (inp : prediction_input)
    (now : string) (s : session) (i : Z) (p : list Q)
    (Hnames : length (feature_names b) = 5%nat)
    (Hpred : model_predict b
               (scaler_transform b (zip (feature_names b) (raw_row inp))) = i)
    (Hproba : model_predict_proba b
               (scaler_transform b (zip (feature_names b) (raw_row inp))) = p)
    (Hi : (-4 <= i <= -1)%Z) (Hlen : length p = 4%nat) :
  exists s' r, run_analysis (Some b) inp now s = Shown s' r /\
    levels !! Z.to_nat (4 + i) = Some (res_level r) /\
    p !! Z.to_nat (4 + i) = Some (res_confidence r).
Proof.
  unfold run_analysis, make_frame.
  rewrite decide_True by (rewrite Hnames; reflexivity).
  rewrite Hpred, Hproba.
  destruct p as [|p0 [|p1 [|p2 [|p3 [|]]]]]; simpl in Hlen; try discriminate.
  assert (Hc : i = (-4)%Z \/ i = (-3)%Z \/ i = (-2)%Z \/ i = (-1)%Z) by lia.
  destruct Hc as [-> | [-> | [-> | ->]]]; simpl.
  all: do 2 eexists; split; [reflexivity|]; split; reflexivity.
Qed.

Lemma run_analysis_negative_index_witness :
  exists s' r,
    run_analysis (Some (mk_bundle (fun df => map snd df) (fun _ => (-1)%Z)
                          (fun _ => [1 # 10; 1 # 10; 1 # 10; 7 # 10])
                          code_feature_order))
      default_input "12:00:00" initial_session = Shown s' r /\
    levels !! Z.to_nat (4 + -1) = Some (res_level r) /\
    [1 # 10; 1 # 10; 1 # 10; 7 # 10] !! Z.to_nat (4 + -1) = Some (res_confidence r).
Proof.
  apply (run_analysis_negative_index
           (mk_bundle (fun df => map snd df) (fun _ => (-1)%Z)
              (fun _ => [1 # 10; 1 # 10; 1 # 10; 7 # 10]) code_feature_order)
           default_input "12:00:00" initial_session (-1)%Z);
    try reflexivity; lia.
Defined.

(** A class index outside -4..3 makes [levels[pred_idx]] raise IndexError
    before the history insert: the run aborts with the session unchanged. *)
Theorem run_analysis_index_out_of_range (b : bundle) (inp : prediction_input)
    (now : string) (s : session) (i : Z)
    (Hnames : length (feature_names b) = 5%nat)
    (Hpred : model_predict b
               (scaler_transform b (zip (feature_names b) (raw_row inp))) = i)
    (Hi : (i < -4 \/ 4 <= i)%Z) :
  run_analysis (Some b) inp now s = Crashed s IndexError.
Proof.
  unfold run_analysis, make_frame.
  rewrite decide_True by (rewrite Hnames; reflexivity).
  rewrite Hpred, py_index_out by (simpl length; lia). reflexivity.
Qed.

Lemma run_analysis_index_out_of_range_witness :
  run_analysis (Some (mk_bundle (fun df => map snd df) (fun _ => 4%Z)
                        (fun _ => [1 # 4; 1 # 4; 1 # 4; 1 # 4])
                        code_feature_order))
    default_input "12:00:00" initial_session = Crashed initial_session IndexError.
Proof.
  apply (run_analysis_index_out_of_range
           (mk_bundle (fun df => map snd df) (fun _ => 4%Z)
              (fun _ => [1 # 4; 1 # 4; 1 # 4; 1 # 4]) code_feature_order)
           default_input "12:00:00" initial_session 4%Z);
    [reflexivity | reflexivity | lia].
Defined.

(** When [predict_proba] returns fewer probabilities than the class index
    needs, [probs[pred_idx]] raises only after the history insert: the run
    aborts, but the session keeps the new history row. *)
Theorem run_analysis_short_probs (b : bundle) (inp : prediction_input)
    (now : string) (s : session) (i : Z) (p : list Q)
    (Hnames : length (feature_names b) = 5%nat)
    (Hpred : model_predict b
               (scaler_transform b (zip (feature_names b) (raw_row inp))) = i)
    (Hproba : model_predict_proba b
               (scaler_transform b (zip (feature_names b) (raw_row inp))) = p)
    (Hi : (0 <= i <= 3)%Z) (Hlen : (length p <= Z.to_nat i)%nat) :
  exists lv, levels !! Z.to_nat i = Some lv /\
    run_analysis (Some b) inp now s =
    Crashed (mk_session (logged_in s) (user s)
               (mk_entry now (mag inp) lv :: history s)) IndexError.
Proof.
  unfold run_analysis, make_frame.
  rewrite decide_True by (rewrite Hnames; reflexivity).
  rewrite Hpred, Hproba.
  rewrite (py_index_out p i) by lia.
  assert (Hc : i = 0%Z \/ i = 1%Z \/ i = 2%Z \/ i = 3%Z) by lia.
  destruct Hc as [-> | [-> | [-> | ->]]]; simpl; eexists; split; reflexivity.
Qed.

Lemma run_analysis_short_probs_witness :
  exists lv, levels !! Z.to_nat 2 = Some lv /\
    run_analysis (Some (mk_bundle (fun df => map snd df) (fun _ => 2%Z)
                          (fun _ => [1 # 2; 1 # 2]) code_feature_order))
      default_input "12:00:00" initial_session =
    Crashed (mk_session false None [mk_entry "12:00:00" (72 # 10) lv]) IndexError.
Proof.
  apply (run_analysis_short_probs
           (mk_bundle (fun df => map snd df) (fun _ => 2%Z)
              (fun _ => [1 # 2; 1 # 2]) code_feature_order)
           default_input "12:00:00" initial_session 2%Z [1 # 2; 1 # 2]);
    try reflexivity; simpl; lia.
Defined.

(** A feature-name list whose length is not 5 makes [pd.DataFrame] raise:
    the run aborts before the classifier is called, session unchanged. *)
Theorem run_analysis_bad_feature_count (b : bundle) (inp : prediction_input)
    (now : string) (s : session)
    (Hnames : length (feature_names b) <> 5%nat) :
  run_analysis (Some b) inp now s = Crashed s ValueError.
Proof.
  unfold run_analysis, make_frame.
  rewrite decide_False by (simpl; congruence). reflexivity.
Qed.

Lemma run_analysis_bad_feature_count_witness :
  run_analysis (Some (demo_bundle [Magnitude; Depth; MMI; CDI]))
    default_input "12:00:00" initial_session = Crashed initial_session ValueError.
Proof.
  apply run_analysis_bad_feature_count. simpl. lia.
Defined.

(** Against a readable store, Sign In succeeds exactly when the store maps
    the user name to the typed password; it then logs the user in and
    keeps the history, and otherwise shows the error and changes nothing. *)
Theorem sign_in_readable (fs : file_state) (users : users_db)
    (u pw : string) (s : session)
    (Hload : load_users fs = Ret users) :
  (users !! u = Some pw ->
   sign_in fs u pw s = Ret (mk_session true (Some u) (history s), NoFeedback)) /\
  (users !! u <> Some pw ->
   sign_in fs u pw s = Ret (s, ShowError "Invalid Username or Password")).
Proof.
  unfold sign_in. rewrite Hload. simpl. split; intros H.
  - rewrite decide_True by exact H. reflexivity.
  - rewrite decide_False by exact H. reflexivity.
Qed.

Lemma sign_in_readable_witness :
  (default_users !! "admin" = Some "wrong" ->
   sign_in Absent "admin" "wrong" initial_session =
   Ret (mk_session true (Some "admin") [], NoFeedback)) /\
  (default_users !! "admin" <> Some "wrong" ->
   sign_in Absent "admin" "wrong" initial_session =
   Ret (initial_session, ShowError "Invalid Username or Password")).
Proof. apply (sign_in_readable Absent default_users). reflexivity. Defined.

(** Register Now with an empty user name or password only shows the
    warning: the store is neither read nor written, so this holds even when
    the file is unreadable. *)
Theorem register_now_empty_field (fs : file_state) (u pw : string)
    (Hempty : u = "" \/ pw = "") :
  register_now fs u pw =
  Ret (fs, ShowWarning "Please enter both username and password.").
Proof.
  unfold register_now. rewrite decide_False by tauto. reflexivity.
Qed.

Lemma register_now_empty_field_witness :
  register_now Unreadable "" "pw" =
  Ret (Unreadable, ShowWarning "Please enter both username and password.").
Proof. apply register_now_empty_field. left. reflexivity. Defined.

(** Registering a fresh, non-empty user name and password through the
    Register Now button reports success, and signing in with the same pair
    afterwards logs that user in. *)
Theorem register_then_sign_in (fs : file_state) (users : users_db)
    (u pw : string) (s : session)
    (Hload : load_users fs = Ret users) (Hfresh : users !! u = None)
    (Hu : u <> "") (Hpw : pw <> "") :
  exists fs',
    register_now fs u pw =
      Ret (fs', ShowSuccess "Account created! Please switch to Login tab.") /\
    sign_in fs' u pw s = Ret (mk_session true (Some u) (history s), NoFeedback).
Proof.
  unfold register_now. rewrite decide_True by tauto.
  unfold save_user. rewrite Hload. simpl.
  rewrite decide_False by (rewrite Hfresh; inversion 1; discriminate).
  eexists. split; [reflexivity|].
  unfold sign_in. simpl. rewrite lookup_insert_eq, decide_True by reflexivity.
  reflexivity.
Qed.

Lemma register_then_sign_in_witness :
  exists fs',
    register_now Absent "alice" "pw1" =
      Ret (fs', ShowSuccess "Account created! Please switch to Login tab.") /\
    sign_in fs' "alice" "pw1" initial_session =
      Ret (mk_session true (Some "alice") [], NoFeedback).
Proof.
  apply (register_then_sign_in Absent default_users "alice" "pw1" initial_session);
    try reflexivity; discriminate.
Defined.

(** The initialisation at the top of every rerun fills the three keys with
    [False], [None] and [] in a fresh browser session, and keeps the values
    an earlier run left (a rerun never logs the user out or clears the
    history). *)
Theorem init_session_state_keeps (b : bool) (u : option string)
    (h : list history_entry) :
  session_of_raw (init_session_state fresh_raw_state) = Some initial_session /\
  session_of_raw (init_session_state (mk_raw (Some b) (Some u) (Some h)))
    = Some (mk_session b u h) /\
  (forall r, init_session_state (init_session_state r) = init_session_state r).
Proof.
  split; [reflexivity|]. split; [reflexivity|].
  intros [[l|] [v|] [k|]]; reflexivity.
Qed.

Lemma app_step_session_ok (a : assets) (st : file_state * session)
    (act : action) :
  session_ok st -> session_ok (app_step a st act).
Proof.
  destruct st as [fs s]. unfold session_ok, app_step. cbn [fst snd].
  destruct (logged_in s) eqn:Hl.
  - destruct (user s) as [u0|] eqn:Hu;
      [|intros H; cbn [fst snd]; rewrite Hl, Hu; exact H].
    destruct act as [u pw|u pw| |inp now];
      try (intros H; cbn [fst snd]; rewrite Hl, Hu; exact H).
    + intros _ H. discriminate H.
    + intros Hok. destruct (run_analysis_session_frame a inp now s) as (Hl' & Hu' & _).
      cbn [fst snd]. rewrite Hl', Hu', Hl, Hu. exact Hok.
  - intros _.
    destruct act as [u pw|u pw| |inp now]; cbn [fst snd];
      try (intros H; rewrite Hl in H; discriminate H).
    + unfold sign_in. destruct (load_users fs) as [users|] eqn:Hload; simpl;
        [|intros H; rewrite Hl in H; discriminate H].
      case_decide as Hd; simpl.
      * intros _. exists u, users. split; [reflexivity|]. split; [exact Hload|].
        rewrite Hd. eexists; reflexivity.
      * intros H; rewrite Hl in H; discriminate H.
    + destruct (register_now fs u pw) as [[fs' fb]|]; simpl;
        intros H; rewrite Hl in H; discriminate H.
Qed.

(** Starting from a fresh session, whatever buttons are pressed, a session
    that is logged in names a user the credential store knows; so the
    [st.session_state['user'].upper()] at the top of [main_dashboard] never
    meets [None]. *)
Theorem app_run_session_ok (a : assets) (fs : file_state)
    (acts : list action) :
  session_ok (app_run a (fs, initial_session) acts).
Proof.
  assert (Hgen : forall st, session_ok st -> session_ok (app_run a st acts)).
  { induction acts as [|act rest IH]; intros st Hst; simpl; [exact Hst|].
    apply IH, app_step_session_ok, Hst. }
  apply Hgen. unfold session_ok. simpl. discriminate.
Qed.

Lemma app_step_store_grows (a : assets) (st : file_state * session)
    (act : action) (users : users_db) :
  load_users (fst st) = Ret users ->
  exists users', load_users (fst (app_step a st act)) = Ret users' /\
    users ⊆ users'.
Proof.
  destruct st as [fs s]. simpl. intros Hload.
  assert (Hsame : exists users', load_users fs = Ret users' /\ users ⊆ users')
    by (exists users; split; [exact Hload|reflexivity]).
  unfold app_step.
  destruct (logged_in s); [destruct (user s); [destruct act|]; exact Hsame|].
  destruct act as [u pw|u pw| |inp now];
    [destruct (sign_in fs u pw s) as [[s' fb]|]; exact Hsame| |exact Hsame|exact Hsame].
  unfold register_now.
  case_decide; [|exact Hsame].
  unfold save_user. rewrite Hload. simpl.
  case_decide as Hin; simpl; [exact Hsame|].
  eexists. split; [reflexivity|].
  apply insert_subseteq. destruct (users !! u) eqn:E; [|reflexivity].
  exfalso. apply Hin. eexists; reflexivity.
Qed.

(** Along any sequence of reruns, the credential store read back only
    gains entries: no registered user name is ever removed and no stored
    password is ever changed. *)
Theorem app_run_store_grows (a : assets) (acts : list action) :
  forall (st : file_state * session) (users : users_db),
  load_users (fst st) = Ret users ->
  exists users', load_users (fst (app_run a st acts)) = Ret users' /\
    users ⊆ users'.
Proof.
  induction acts as [|act rest IH]; intros st users Hload; simpl.
  - exists users. split; [exact Hload|reflexivity].
  - destruct (app_step_store_grows a st act users Hload) as (u1 & H1 & Hs1).
    destruct (IH _ _ H1) as (u2 & H2 & Hs2).
    exists u2. split; [exact H2|]. etransitivity; eassumption.
Qed.

Lemma app_run_store_grows_witness :
  exists users', load_users (fst (app_run None (Absent, initial_session)
      [RegisterA "alice" "pw1"; SignInA "alice" "pw1"; LogoutA])) = Ret users' /\
    default_users ⊆ users'.
Proof.
  apply (app_run_store_grows None _ (Absent, initial_session) default_users).
  reflexivity.
Defined.

Lemma app_step_history_suffix (a : assets) (st : file_state * session)
    (act : action) :
  history (snd st) `suffix_of` history (snd (app_step a st act)).
Proof.
  destruct st as [fs s]. unfold app_step. simpl.
  destruct (logged_in s).
  - destruct (user s); [|reflexivity].
    destruct act as [u pw|u pw| |inp now]; simpl; try reflexivity.
    destruct (run_analysis_session_frame a inp now s) as (_ & _ & [-> | [lv ->]]).
    + reflexivity.
    + apply suffix_cons_r. reflexivity.
  - destruct act as [u pw|u pw| |inp now]; simpl; try reflexivity.
    + unfold sign_in. destruct (load_users fs); simpl; [|reflexivity].
      case_decide; reflexivity.
    + destruct (register_now fs u pw) as [[fs' fb]|]; reflexivity.
Qed.

(** Along any sequence of reruns the history of the session only grows at
    its front: no action removes or rewrites an earlier history row (not
    even Logout or a new Sign In). *)
Theorem app_run_history_suffix (a : assets) (acts : list action) :
  forall (st : file_state * session),
  history (snd st) `suffix_of` history (snd (app_run a st acts)).
Proof.
  induction acts as [|act rest IH]; intros st; simpl; [reflexivity|].
  etransitivity; [apply app_step_history_suffix|apply IH].
Qed.

(** With an unreadable credential file, no sequence of button presses gets
    past the login page, and the file is never rewritten. *)
Theorem app_run_unreadable_locked (a : assets) (acts : list action) :
  forall (s : session), logged_in s = false ->
  fst (app_run a (Unreadable, s) acts) = Unreadable /\
  logged_in (snd (app_run a (Unreadable, s) acts)) = false.
Proof.
  induction acts as [|act rest IH]; intros s Hl; [split; [reflexivity|exact Hl]|].
  cbn [app_run].
  assert (Hstep : app_step a (Unreadable, s) act = (Unreadable, s)).
  { unfold app_step. rewrite Hl.
    destruct act as [u pw|u pw| |inp now]; try reflexivity.
    unfold register_now. case_decide; reflexivity. }
  rewrite Hstep. apply IH. exact Hl.
Qed.

Lemma app_run_unreadable_locked_witness :
  fst (app_run None (Unreadable, initial_session)
         [SignInA "admin" "seismic2024"; RegisterA "bob" "pw"]) = Unreadable /\
  logged_in (snd (app_run None (Unreadable, initial_session)
         [SignInA "admin" "seismic2024"; RegisterA "bob" "pw"])) = false.
Proof. apply app_run_unreadable_locked. reflexivity. Defined.
